(** * os/stat_windows.go: metadata resolution for a path or an open handle

    A shallow embedding of [src/os/stat_windows.go].  The Windows API is an
    opaque layer of operations on an abstract world; every call the Go code
    makes is threaded through a state monad that also records the call in a
    trace, so that statements about "which OS calls happen, in which order,
    with which arguments" are statements about the final trace. *)

From Stdlib Require Import ZArith String List Bool Lia.
Import ListNotations.

Open Scope string_scope.
Open Scope list_scope.
Open Scope Z_scope.

(** ** Constants of the [syscall] and [internal/syscall/windows] packages *)

Definition uint32 (z : Z) : Z := z mod 2 ^ 32.

Module syscall.
Definition ERROR_PATH_NOT_FOUND : Z := 3.
Definition FILE_ATTRIBUTE_REPARSE_POINT : Z := 0x400.
Definition FILE_FLAG_OPEN_REPARSE_POINT : Z := 0x00200000.
Definition FILE_FLAG_BACKUP_SEMANTICS : Z := 0x02000000.
Definition GENERIC_READ : Z := 0x80000000.
Definition FILE_SHARE_READ : Z := 0x1.
Definition FILE_SHARE_WRITE : Z := 0x2.
Definition OPEN_EXISTING : Z := 3.
Definition FILE_TYPE_UNKNOWN : Z := 0x0.
Definition FILE_TYPE_DISK : Z := 0x1.
Definition FILE_TYPE_CHAR : Z := 0x2.
Definition FILE_TYPE_PIPE : Z := 0x3.
End syscall.

Module windows.
Definition ERROR_SHARING_VIOLATION : Z := 32.
End windows.

(** ** Errors

    A Go [error] value as this file produces and inspects it: a bare
    [syscall.Errno], a [*PathError] wrapping another error, the sentinel
    [ErrInvalid], or some other error made by a collaborator. *)

Inductive error : Type :=
| Errno (e : Z)
| PathError (Op Path : string) (Err : error)
| ErrInvalid
| OtherError (msg : string).

(** [err == windows.ERROR_SHARING_VIOLATION] on an [error] interface value
    that may be nil: true only for a bare [Errno] of that number. *)
Definition is_errno (err : option error) (n : Z) : bool :=
  match err with
  | Some (Errno e) => e =? n
  | _ => false
  end.

(** ** Data *)

Definition Handle := Z.

Record Filetime := { LowDateTime : Z; HighDateTime : Z }.

Definition zeroFiletime : Filetime := {| LowDateTime := 0; HighDateTime := 0 |}.

Record Win32FileAttributeData := {
  fa_FileAttributes : Z;
  fa_CreationTime : Filetime;
  fa_LastAccessTime : Filetime;
  fa_LastWriteTime : Filetime;
  fa_FileSizeHigh : Z;
  fa_FileSizeLow : Z
}.

Record Win32finddata := {
  fd_FileAttributes : Z;
  fd_CreationTime : Filetime;
  fd_LastAccessTime : Filetime;
  fd_LastWriteTime : Filetime;
  fd_FileSizeHigh : Z;
  fd_FileSizeLow : Z;
  fd_FileName : string
}.

(** The [fileStat] record.  The fields the source file writes are [name],
    [filetype], the attributes, the three timestamps and the two size words;
    [path], [vol], [idxhi] and [idxlo] are the identity fields that the
    collaborators fill in. *)
Record fileStat := {
  name : string;
  FileAttributes : Z;
  CreationTime : Filetime;
  LastAccessTime : Filetime;
  LastWriteTime : Filetime;
  FileSizeHigh : Z;
  FileSizeLow : Z;
  filetype : Z;
  path : string;
  vol : Z;
  idxhi : Z;
  idxlo : Z
}.

(** The pair [(FileInfo, error)] a resolver returns. *)
Inductive result : Type :=
| Ok (fs : fileStat)
| Err (e : error).

(** ** Trace of OS calls *)

Inductive Event : Type :=
| EvGetFileAttributesEx (namep : string)
| EvFindFirstFile (namep : string) (opened : option Handle)
| EvFindClose (h : Handle)
| EvCreateFile (namep : string) (access share createmode attrs : Z)
               (opened : option Handle)
| EvCloseHandle (h : Handle)
| EvGetFileType (h : Handle)
| EvGetFileInformationByHandle (name : string) (h : Handle)
| EvSaveInfoFromPath (name : string).

(** ** The OS layer and the collaborators outside this file *)

Record OSLayer (W : Type) := {
  os_fixLongPath : string -> string;
  os_UTF16PtrFromString : string -> error + string;
  os_basename : string -> string;
  os_GetFileAttributesEx : string -> W -> (error + Win32FileAttributeData) * W;
  os_FindFirstFile : string -> W -> (error + Handle * Win32finddata) * W;
  os_FindClose : Handle -> W -> W;
  os_CreateFile : string -> Z -> Z -> Z -> Z -> W -> (error + Handle) * W;
  os_CloseHandle : Handle -> W -> W;
  os_GetFileType : Handle -> W -> (error + Z) * W;
  os_newFileStatFromGetFileInformationByHandle :
    string -> Handle -> W -> (error + fileStat) * W;
  os_saveInfoFromPath : string -> fileStat -> W -> (error + fileStat) * W
}.

Arguments os_fixLongPath {W}.
Arguments os_UTF16PtrFromString {W}.
Arguments os_basename {W}.
Arguments os_GetFileAttributesEx {W}.
Arguments os_FindFirstFile {W}.
Arguments os_FindClose {W}.
Arguments os_CreateFile {W}.
Arguments os_CloseHandle {W}.
Arguments os_GetFileType {W}.
Arguments os_newFileStatFromGetFileInformationByHandle {W}.
Arguments os_saveInfoFromPath {W}.

(** ** State monad: the world plus the trace of calls made so far *)

Record State (W : Type) := mkState { world : W; trace : list Event }.
Arguments mkState {W}.
Arguments world {W}.
Arguments trace {W}.

Definition M (W A : Type) : Type := State W -> A * State W.

Definition ret {W A} (a : A) : M W A := fun s => (a, s).

Definition bind {W A B} (m : M W A) (f : A -> M W B) : M W B :=
  fun s => let (a, s') := m s in f a s'.

Notation "x <- m ;; k" := (bind m (fun x => k))
  (at level 61, m at next level, right associativity).
Notation "m ;;; k" := (bind m (fun _ => k))
  (at level 61, right associativity).

(** Run one primitive of the layer and log it. *)
Definition call {W A} (op : W -> A * W) (ev : A -> Event) : M W A :=
  fun s => let (a, w') := op (world s) in
           (a, mkState w' (trace s ++ [ev a])).

Definition call_ {W} (op : W -> W) (ev : Event) : M W unit :=
  fun s => (tt, mkState (op (world s)) (trace s ++ [ev])).

Definition opened_of {A B} (f : B -> Handle) (r : A + B) : option Handle :=
  match r with
  | inl _ => None
  | inr b => Some (f b)
  end.

Section Resolver.

Context {W : Type} (os : OSLayer W).

Definition GetFileAttributesEx (namep : string)
  : M W (error + Win32FileAttributeData) :=
  call (os_GetFileAttributesEx os namep) (fun _ => EvGetFileAttributesEx namep).

Definition FindFirstFile (namep : string)
  : M W (error + Handle * Win32finddata) :=
  call (os_FindFirstFile os namep)
       (fun r => EvFindFirstFile namep (opened_of fst r)).

Definition FindClose (h : Handle) : M W unit :=
  call_ (os_FindClose os h) (EvFindClose h).

Definition CreateFile (namep : string) (access share createmode attrs : Z)
  : M W (error + Handle) :=
  call (os_CreateFile os namep access share createmode attrs)
       (fun r => EvCreateFile namep access share createmode attrs
                              (opened_of (fun h => h) r)).

Definition CloseHandle (h : Handle) : M W unit :=
  call_ (os_CloseHandle os h) (EvCloseHandle h).

Definition GetFileType (h : Handle) : M W (error + Z) :=
  call (os_GetFileType os h) (fun _ => EvGetFileType h).

Definition newFileStatFromGetFileInformationByHandle (name : string) (h : Handle)
  : M W (error + fileStat) :=
  call (os_newFileStatFromGetFileInformationByHandle os name h)
       (fun _ => EvGetFileInformationByHandle name h).

Definition saveInfoFromPath (fs : fileStat) (name : string)
  : M W (error + fileStat) :=
  call (os_saveInfoFromPath os name fs) (fun _ => EvSaveInfoFromPath name).

(** Modelled from the spec: [newFileStatFromWin32finddata] is declared outside
    this file; the find-first result is turned into metadata by a straight
    field copy from the enumeration entry. *)
Definition newFileStatFromWin32finddata (d : Win32finddata) : fileStat := {|
  name := ""; FileAttributes := fd_FileAttributes d;
  CreationTime := fd_CreationTime d;
  LastAccessTime := fd_LastAccessTime d;
  LastWriteTime := fd_LastWriteTime d;
  FileSizeHigh := fd_FileSizeHigh d;
  FileSizeLow := fd_FileSizeLow d;
  filetype := 0; path := ""; vol := 0; idxhi := 0; idxlo := 0 |}.

(** The literal [&fileStat{FileAttributes: fa.FileAttributes, ...}] of the
    fast path. *)
Definition fileStatOfAttributeData (fa : Win32FileAttributeData) : fileStat := {|
  name := ""; FileAttributes := fa_FileAttributes fa;
  CreationTime := fa_CreationTime fa;
  LastAccessTime := fa_LastAccessTime fa;
  LastWriteTime := fa_LastWriteTime fa;
  FileSizeHigh := fa_FileSizeHigh fa;
  FileSizeLow := fa_FileSizeLow fa;
  filetype := 0; path := ""; vol := 0; idxhi := 0; idxlo := 0 |}.

(** [if err := fs.saveInfoFromPath(name); err != nil { return nil, err };
    return fs, nil] *)
Definition saveAndReturn (fs : fileStat) (name : string) : M W result :=
  r <- saveInfoFromPath fs name ;;
  match r with
  | inl err => ret (Err err)
  | inr fs' => ret (Ok fs')
  end.

Definition with_filetype (fs : fileStat) (ft : Z) : fileStat := {|
  name := name fs; FileAttributes := FileAttributes fs;
  CreationTime := CreationTime fs; LastAccessTime := LastAccessTime fs;
  LastWriteTime := LastWriteTime fs;
  FileSizeHigh := FileSizeHigh fs; FileSizeLow := FileSizeLow fs;
  filetype := ft; path := path fs; vol := vol fs;
  idxhi := idxhi fs; idxlo := idxlo fs |}.

(** [&fileStat{name: basename(name), filetype: ft}] *)
Definition minimalFileStat (nm : string) (ft : Z) : fileStat := {|
  name := nm; FileAttributes := 0;
  CreationTime := zeroFiletime; LastAccessTime := zeroFiletime;
  LastWriteTime := zeroFiletime;
  FileSizeHigh := 0; FileSizeLow := 0; filetype := ft;
  path := ""; vol := 0; idxhi := 0; idxlo := 0 |}.

Definition statHandle (name : string) (h : Handle) : M W result :=
  r <- GetFileType h ;;
  match r with
  | inl err => ret (Err (PathError "GetFileType" name err))
  | inr ft =>
    if (ft =? syscall.FILE_TYPE_PIPE) || (ft =? syscall.FILE_TYPE_CHAR) then
      ret (Ok (minimalFileStat (os_basename os name) ft))
    else
      r' <- newFileStatFromGetFileInformationByHandle name h ;;
      match r' with
      | inl err => ret (Err err)
      | inr fs => ret (Ok (with_filetype fs ft))
      end
  end.

(** Lines 57-69 of [stat]: the [FindFirstFile] branch. *)
Definition enumeration_fallback (name namep : string) : M W result :=
  r <- FindFirstFile namep ;;
  match r with
  | inl err => ret (Err (PathError "FindFirstFile" name err))
  | inr (sh, fd) =>
    FindClose sh ;;;
    saveAndReturn (newFileStatFromWin32finddata fd) name
  end.

(** Lines 71-82 of [stat]: "Finally use CreateFile".  The deferred
    [CloseHandle] runs after [statHandle] has produced the result and before
    [stat] returns it. *)
Definition full_open (name namep : string) (createFileAttrs : Z) : M W result :=
  r <- CreateFile namep syscall.GENERIC_READ
         (Z.lor syscall.FILE_SHARE_READ syscall.FILE_SHARE_WRITE)
         syscall.OPEN_EXISTING createFileAttrs ;;
  match r with
  | inl err => ret (Err (PathError "CreateFile" name err))
  | inr h =>
    res <- statHandle name h ;;
    CloseHandle h ;;;
    ret res
  end.

(** Lines 55-83 of [stat]: what runs when the fast path did not return.
    [err] is the value of the variable [err] after [GetFileAttributesEx]
    ([None] is nil). *)
Definition stat_fallback (name namep : string) (createFileAttrs : Z)
           (err : option error) : M W result :=
  if is_errno err windows.ERROR_SHARING_VIOLATION
  then enumeration_fallback name namep
  else full_open name namep createFileAttrs.

(** [stat] implements both Stat and Lstat of a file. *)
Definition stat (funcname name : string) (createFileAttrs : Z) : M W result :=
  if (String.length name =? 0)%nat then
    ret (Err (PathError funcname name (Errno syscall.ERROR_PATH_NOT_FOUND)))
  else
    match os_UTF16PtrFromString os (os_fixLongPath os name) with
    | inl err => ret (Err (PathError funcname name err))
    | inr namep =>
      r <- GetFileAttributesEx namep ;;
      match r with
      | inr fa =>
        if Z.land (fa_FileAttributes fa) syscall.FILE_ATTRIBUTE_REPARSE_POINT =? 0
        then saveAndReturn (fileStatOfAttributeData fa) name
        else stat_fallback name namep createFileAttrs None
      | inl err => stat_fallback name namep createFileAttrs (Some err)
      end
    end.

(** [statNolog] implements Stat for Windows. *)
Definition statNolog (name : string) : M W result :=
  stat "Stat" name syscall.FILE_FLAG_BACKUP_SEMANTICS.

(** [lstatNolog] implements Lstat for Windows. *)
Definition lstatNolog (name : string) : M W result :=
  let attrs := uint32 syscall.FILE_FLAG_BACKUP_SEMANTICS in
  let attrs := Z.lor attrs syscall.FILE_FLAG_OPEN_REPARSE_POINT in
  stat "Lstat" name attrs.

(** Modelled from the spec: the exported [Stat] is declared outside this
    file; it is the public follow-symlinks entry point, which routes through
    the strategy selector with the "Stat" operation tag. *)
Definition Stat (name : string) : M W result := statNolog name.

(** Modelled from the spec: the [File] type is declared outside this file.
    A file remembers its name and system handle; an open directory
    additionally carries [dirinfo] with its remembered path, and [isdir] is
    the presence of that record. *)
Record dirInfo := { dir_path : string }.

Record File := {
  file_name : string;
  pfd_Sysfd : Handle;
  dirinfo : option dirInfo
}.

(** The method [Stat] of [File]; the pointer receiver may be nil ([None]). *)
Definition File_Stat (file : option File) : M W result :=
  match file with
  | None => ret (Err ErrInvalid)
  | Some f =>
    match dirinfo f with
    | Some d => Stat (dir_path d)
    | None => statHandle (file_name f) (pfd_Sysfd f)
    end
  end.

End Resolver.

(** ** Handle accounting on a trace *)

Inductive HandleKind : Type := FindHandle | FileHandle.

Definition kind_eqb (a b : HandleKind) : bool :=
  match a, b with
  | FindHandle, FindHandle | FileHandle, FileHandle => true
  | _, _ => false
  end.

Definition same_handle (a b : HandleKind * Handle) : bool :=
  kind_eqb (fst a) (fst b) && (snd a =? snd b).

(** Handles a trace opens: successful [FindFirstFile] and [CreateFile]. *)
Fixpoint opened (evs : list Event) : list (HandleKind * Handle) :=
  match evs with
  | [] => []
  | EvFindFirstFile _ (Some h) :: evs' => (FindHandle, h) :: opened evs'
  | EvCreateFile _ _ _ _ _ (Some h) :: evs' => (FileHandle, h) :: opened evs'
  | _ :: evs' => opened evs'
  end.

(** Handles a trace releases: [FindClose] and [CloseHandle]. *)
Fixpoint released (evs : list Event) : list (HandleKind * Handle) :=
  match evs with
  | [] => []
  | EvFindClose h :: evs' => (FindHandle, h) :: released evs'
  | EvCloseHandle h :: evs' => (FileHandle, h) :: released evs'
  | _ :: evs' => released evs'
  end.

Fixpoint release_one (x : HandleKind * Handle) (live : list (HandleKind * Handle))
  : option (list (HandleKind * Handle)) :=
  match live with
  | [] => None
  | y :: live' =>
    if same_handle x y then Some live'
    else option_map (cons y) (release_one x live')
  end.

(** Replay a trace against the set of live handles: an open adds its handle,
    a release must name a live handle and removes it.  [None] when a release
    comes before (or without) its open. *)
Fixpoint track (evs : list Event) (live : list (HandleKind * Handle))
  : option (list (HandleKind * Handle)) :=
  match evs with
  | [] => Some live
  | EvFindFirstFile _ (Some h) :: evs' => track evs' ((FindHandle, h) :: live)
  | EvCreateFile _ _ _ _ _ (Some h) :: evs' => track evs' ((FileHandle, h) :: live)
  | EvFindClose h :: evs' =>
    match release_one (FindHandle, h) live with
    | Some live' => track evs' live'
    | None => None
    end
  | EvCloseHandle h :: evs' =>
    match release_one (FileHandle, h) live with
    | Some live' => track evs' live'
    | None => None
    end
  | _ :: evs' => track evs' live
  end.

Definition is_CreateFile (e : Event) : bool :=
  match e with
  | EvCreateFile _ _ _ _ _ _ => true
  | _ => false
  end.

(** The caller asked to follow symlinks: the reparse-open bit of the
    [createFileAttrs] argument is clear. *)
Definition followSymlink (createFileAttrs : Z) : bool :=
  Z.land createFileAttrs syscall.FILE_FLAG_OPEN_REPARSE_POINT =? 0.

(** A file type for which [statHandle] gathers full metadata: anything but
    the two device classes its [switch] singles out. *)
Definition diskEquivalent (ft : Z) : bool :=
  negb ((ft =? syscall.FILE_TYPE_PIPE) || (ft =? syscall.FILE_TYPE_CHAR)).

(** ** A small concrete OS layer

    The world is the next handle number to hand out.  Five paths exist:
    a regular file, a symlink, a file held in exclusive use, a file whose
    attribute query is refused, and a relative path whose identity
    enrichment fails. *)

Module Mock.

Definition t0 : Filetime := {| LowDateTime := 100; HighDateTime := 1 |}.

Definition regularAttrs : Win32FileAttributeData := {|
  fa_FileAttributes := 0x20; fa_CreationTime := t0; fa_LastAccessTime := t0;
  fa_LastWriteTime := t0; fa_FileSizeHigh := 0; fa_FileSizeLow := 42 |}.

Definition linkAttrs : Win32FileAttributeData := {|
  fa_FileAttributes := 0x420; fa_CreationTime := t0; fa_LastAccessTime := t0;
  fa_LastWriteTime := t0; fa_FileSizeHigh := 0; fa_FileSizeLow := 0 |}.

Definition pagefileEntry : Win32finddata := {|
  fd_FileAttributes := 0x26; fd_CreationTime := t0; fd_LastAccessTime := t0;
  fd_LastWriteTime := t0; fd_FileSizeHigh := 1; fd_FileSizeLow := 4096;
  fd_FileName := "pagefile.sys" |}.

Definition handleStat (nm : string) : fileStat := {|
  name := nm; FileAttributes := 0x20;
  CreationTime := t0; LastAccessTime := t0; LastWriteTime := t0;
  FileSizeHigh := 0; FileSizeLow := 7; filetype := 0;
  path := ""; vol := 1234; idxhi := 0; idxlo := 55 |}.


Definition ERROR_FILE_NOT_FOUND : Z := 2.
Definition ERROR_ACCESS_DENIED : Z := 5.

Definition getAttrs (namep : string) (w : Z)
  : (error + Win32FileAttributeData) * Z :=
  if String.eqb namep "C:\a.txt" || String.eqb namep "rel.txt"
  then (inr regularAttrs, w)
  else if String.eqb namep "C:\link" then (inr linkAttrs, w)
  else if String.eqb namep "C:\pagefile.sys"
       then (inl (Errno windows.ERROR_SHARING_VIOLATION), w)
  else if String.eqb namep "C:\denied" then (inl (Errno ERROR_ACCESS_DENIED), w)
  else (inl (Errno ERROR_FILE_NOT_FOUND), w).

Definition findFirst (namep : string) (w : Z)
  : (error + Handle * Win32finddata) * Z :=
  if String.eqb namep "C:\pagefile.sys" then (inr (w, pagefileEntry), w + 1)
  else (inl (Errno ERROR_FILE_NOT_FOUND), w).

Definition createFile (namep : string) (access share createmode attrs : Z) (w : Z)
  : (error + Handle) * Z :=
  if String.eqb namep "C:\link" || String.eqb namep "C:\denied"
     || String.eqb namep "C:\a.txt"
  then (inr w, w + 1)
  else (inl (Errno ERROR_FILE_NOT_FOUND), w).

(** Handle 3 is a pipe and handle 2 a console; every other handle is a disk
    file. *)
Definition getFileType (h : Handle) (w : Z) : (error + Z) * Z :=
  if h =? 3 then (inr syscall.FILE_TYPE_PIPE, w)
  else if h =? 2 then (inr syscall.FILE_TYPE_CHAR, w)
  else (inr syscall.FILE_TYPE_DISK, w).

Definition saveInfo (nm : string) (fs : fileStat) (w : Z)
  : (error + fileStat) * Z :=
  if String.eqb nm "rel.txt" then (inl (PathError "FullPath" nm (Errno 5)), w)
  else (inr {| name := nm; FileAttributes := FileAttributes fs;
               CreationTime := CreationTime fs;
               LastAccessTime := LastAccessTime fs;
               LastWriteTime := LastWriteTime fs;
               FileSizeHigh := FileSizeHigh fs; FileSizeLow := FileSizeLow fs;
               filetype := filetype fs; path := nm; vol := vol fs;
               idxhi := idxhi fs; idxlo := idxlo fs |}, w).

Definition layer : OSLayer Z := {|
  os_fixLongPath := fun s => s;
  os_UTF16PtrFromString := fun s => inr s;
  os_basename := fun s => s;
  os_GetFileAttributesEx := getAttrs;
  os_FindFirstFile := findFirst;
  os_FindClose := fun _ w => w;
  os_CreateFile := createFile;
  os_CloseHandle := fun _ w => w;
  os_GetFileType := getFileType;
  os_newFileStatFromGetFileInformationByHandle :=
    fun nm _ w => (inr (handleStat nm), w);
  os_saveInfoFromPath := saveInfo
|}.

Definition start : State Z := mkState 10 [].

(** A second layer, whose path encoding refuses a name with a NUL
    character in it. *)
Fixpoint hasNUL (p : string) : bool :=
  match p with
  | EmptyString => false
  | String c p' => Ascii.eqb c Ascii.zero || hasNUL p'
  end.

Definition EINVAL : Z := 536870951.

Definition encode (p : string) : error + string :=
  if hasNUL p then inl (Errno EINVAL) else inr p.

Definition strict : OSLayer Z := {|
  os_fixLongPath := fun s => s;
  os_UTF16PtrFromString := encode;
  os_basename := fun s => s;
  os_GetFileAttributesEx := getAttrs;
  os_FindFirstFile := findFirst;
  os_FindClose := fun _ w => w;
  os_CreateFile := createFile;
  os_CloseHandle := fun _ w => w;
  os_GetFileType := getFileType;
  os_newFileStatFromGetFileInformationByHandle :=
    fun nm _ w => (inr (handleStat nm), w);
  os_saveInfoFromPath := saveInfo
|}.


Definition nulName : string := "a" ++ String Ascii.zero "b".

End Mock.

(** ** Predicates on a run of [stat] *)

(** The run of [stat] from [s] returned from the fast path: its result and
    final state are those of [saveAndReturn] applied to the metadata copied
    from the fast-query data [fa], right after the query. *)
Definition fast_path_return {W} (os : OSLayer W) (funcname name : string)
           (createFileAttrs : Z) (s : State W) (namep : string)
           (fa : Win32FileAttributeData) (w1 : W) : Prop :=
  stat os funcname name createFileAttrs s
  = saveAndReturn os (fileStatOfAttributeData fa) name
                  (mkState w1 (trace s ++ [EvGetFileAttributesEx namep])).

(** The error [err] of the fast query ended the run of [stat] from [s]: it
    is the error returned, and the query is the only call made. *)
Definition fast_query_error_terminal {W} (os : OSLayer W)
           (funcname name : string) (createFileAttrs : Z) (s : State W)
           (namep : string) (err : error) : Prop :=
  fst (stat os funcname name createFileAttrs s) = Err err /\
  trace (snd (stat os funcname name createFileAttrs s))
  = trace s ++ [EvGetFileAttributesEx namep].

(** ** Further predicates on traces *)

(** The path argument of an event is the right one for a run of [stat] on
    [name] whose encoded path is [namep]: the three Windows calls take the
    encoded path, the two collaborators take the caller's name. *)
Definition path_arg_ok (name namep : string) (e : Event) : bool :=
  match e with
  | EvGetFileAttributesEx p => String.eqb p namep
  | EvFindFirstFile p _ => String.eqb p namep
  | EvCreateFile p _ _ _ _ _ => String.eqb p namep
  | EvSaveInfoFromPath n => String.eqb n name
  | EvGetFileInformationByHandle n _ => String.eqb n name
  | _ => true
  end.

Definition is_live (x : HandleKind * Handle) (live : list (HandleKind * Handle))
  : bool :=
  existsb (same_handle x) live.

(** Replay a trace as [track] does, and also require every query made
    through a handle ([GetFileType], the information query) to name a file
    handle that is live at that point. *)
Fixpoint disciplined (evs : list Event) (live : list (HandleKind * Handle))
  : bool :=
  match evs with
  | [] => true
  | EvFindFirstFile _ (Some h) :: evs' => disciplined evs' ((FindHandle, h) :: live)
  | EvCreateFile _ _ _ _ _ (Some h) :: evs' =>
    disciplined evs' ((FileHandle, h) :: live)
  | EvFindClose h :: evs' =>
    match release_one (FindHandle, h) live with
    | Some live' => disciplined evs' live'
    | None => false
    end
  | EvCloseHandle h :: evs' =>
    match release_one (FileHandle, h) live with
    | Some live' => disciplined evs' live'
    | None => false
    end
  | EvGetFileType h :: evs' =>
    is_live (FileHandle, h) live && disciplined evs' live
  | EvGetFileInformationByHandle _ h :: evs' =>
    is_live (FileHandle, h) live && disciplined evs' live
  | _ :: evs' => disciplined evs' live
  end.

(** ** Proof automation *)

Ltac unfold_resolver :=
  unfold File_Stat, Stat, statNolog, lstatNolog, stat, stat_fallback,
         enumeration_fallback, full_open, statHandle, saveAndReturn,
         GetFileAttributesEx, FindFirstFile, FindClose, CreateFile,
         CloseHandle, GetFileType, newFileStatFromGetFileInformationByHandle,
         saveInfoFromPath, call, call_, bind, ret in *.

Ltac break_match :=
  match goal with
  | |- context [match ?x with _ => _ end] =>
    match type of x with
    | (_ + _)%type => destruct x eqn:?
    | (_ * _)%type => destruct x eqn:?
    | bool => destruct x eqn:?
    | option _ => destruct x eqn:?
    end
  | H : context [match ?x with _ => _ end] |- _ =>
    match type of x with
    | (_ + _)%type => destruct x eqn:?
    | (_ * _)%type => destruct x eqn:?
    | bool => destruct x eqn:?
    | option _ => destruct x eqn:?
    end
  end.

Ltac split_pairs :=
  repeat match goal with
         | H : (_, _) = (_, _) |- _ => inversion H; clear H
         end;
  subst.

Ltac run_resolver :=
  unfold_resolver;
  repeat (break_match; split_pairs; cbn [fst snd trace world] in *).

Lemma nonempty_length (s : string) :
  s <> "" -> (String.length s =? 0)%nat = false.
Proof.
  destruct s; [congruence | reflexivity].
Qed.

Lemma same_handle_refl (x : HandleKind * Handle) : same_handle x x = true.
Proof.
  destruct x as [[|] h]; unfold same_handle; cbn; apply Z.eqb_refl.
Qed.

(** Every [CreateFile] call that [stat] makes carries the caller's
    [createFileAttrs] unchanged, together with the fixed access, share and
    disposition arguments. *)
Lemma stat_CreateFile_args {W} (os : OSLayer W) funcname name createFileAttrs w
      namep access share createmode attrs o :
  In (EvCreateFile namep access share createmode attrs o)
     (trace (snd (stat os funcname name createFileAttrs (mkState w [])))) ->
  attrs = createFileAttrs /\ access = syscall.GENERIC_READ /\
  share = Z.lor syscall.FILE_SHARE_READ syscall.FILE_SHARE_WRITE /\
  createmode = syscall.OPEN_EXISTING.
Proof.
  run_resolver; cbn; intros HIn;
    repeat match goal with
           | H : _ \/ _ |- _ => destruct H
           | H : False |- _ => contradiction
           | H : _ = EvCreateFile _ _ _ _ _ _ |- _ => inversion H; subst; clear H
           end; auto.
Qed.

(** ** Theorems *)

(** C3. For the empty path both entry points fail at once with a
    path-not-found error and make no OS call: the world and the trace come
    back untouched.  The operation tag of the error is "Stat" for the
    follow variant and "Lstat" for the no-follow variant, and the two tags
    differ. *)
Theorem empty_path_fails_without_os_calls {W} (os : OSLayer W) (s : State W) :
  statNolog os "" s
    = (Err (PathError "Stat" "" (Errno syscall.ERROR_PATH_NOT_FOUND)), s) /\
  lstatNolog os "" s
    = (Err (PathError "Lstat" "" (Errno syscall.ERROR_PATH_NOT_FOUND)), s) /\
  fst (statNolog os "" s) <> fst (lstatNolog os "" s).
Proof.
  repeat split; try reflexivity.
  cbn. intros H. inversion H.
Qed.

(** C4. Whatever the OS answers, a [CreateFile] call made on behalf of
    [statNolog] carries exactly FILE_FLAG_BACKUP_SEMANTICS (backup semantics
    set, reparse-open bit clear), and one made on behalf of [lstatNolog]
    carries FILE_FLAG_BACKUP_SEMANTICS | FILE_FLAG_OPEN_REPARSE_POINT (both
    set).  The full-open fallback passes the flags it was given to
    [CreateFile] as its first action, and [statNolog] and [lstatNolog] are
    [stat] at these two flag words. *)
Theorem entry_points_pass_open_flags {W} (os : OSLayer W) (name : string) (w : W) :
  (forall namep access share createmode attrs o,
      In (EvCreateFile namep access share createmode attrs o)
         (trace (snd (statNolog os name (mkState w [])))) ->
      attrs = syscall.FILE_FLAG_BACKUP_SEMANTICS /\
      Z.land attrs syscall.FILE_FLAG_BACKUP_SEMANTICS
        = syscall.FILE_FLAG_BACKUP_SEMANTICS /\
      Z.land attrs syscall.FILE_FLAG_OPEN_REPARSE_POINT = 0) /\
  (forall namep access share createmode attrs o,
      In (EvCreateFile namep access share createmode attrs o)
         (trace (snd (lstatNolog os name (mkState w [])))) ->
      attrs = Z.lor syscall.FILE_FLAG_BACKUP_SEMANTICS
                    syscall.FILE_FLAG_OPEN_REPARSE_POINT /\
      Z.land attrs syscall.FILE_FLAG_BACKUP_SEMANTICS
        = syscall.FILE_FLAG_BACKUP_SEMANTICS /\
      Z.land attrs syscall.FILE_FLAG_OPEN_REPARSE_POINT
        = syscall.FILE_FLAG_OPEN_REPARSE_POINT) /\
  (forall namep attrs t,
      exists o rest,
        trace (snd (full_open os name namep attrs (mkState w t)))
        = t ++ EvCreateFile namep syscall.GENERIC_READ
                 (Z.lor syscall.FILE_SHARE_READ syscall.FILE_SHARE_WRITE)
                 syscall.OPEN_EXISTING attrs o :: rest) /\
  statNolog os name = stat os "Stat" name syscall.FILE_FLAG_BACKUP_SEMANTICS /\
  lstatNolog os name
    = stat os "Lstat" name (Z.lor syscall.FILE_FLAG_BACKUP_SEMANTICS
                                  syscall.FILE_FLAG_OPEN_REPARSE_POINT).
Proof.
  split; [| split; [| split; [| split; reflexivity]]].
  - intros namep access share createmode attrs o HIn.
    apply stat_CreateFile_args in HIn. destruct HIn as [-> _].
    repeat split; reflexivity.
  - intros namep access share createmode attrs o HIn.
    apply stat_CreateFile_args in HIn. destruct HIn as [-> _].
    repeat split; reflexivity.
  - intros namep attrs t.
    run_resolver; rewrite <- ?app_assoc; cbn; eauto.
Qed.

Lemma entry_points_pass_open_flags_witness :
  In (EvCreateFile "C:\link" syscall.GENERIC_READ 3 syscall.OPEN_EXISTING
                   0x02000000 (Some 10))
     (trace (snd (statNolog Mock.layer "C:\link" (mkState 10 [])))) /\
  In (EvCreateFile "C:\link" syscall.GENERIC_READ 3 syscall.OPEN_EXISTING
                   0x02200000 (Some 10))
     (trace (snd (lstatNolog Mock.layer "C:\link" (mkState 10 [])))) /\
  Z.land 0x02000000 syscall.FILE_FLAG_OPEN_REPARSE_POINT = 0 /\
  Z.land 0x02200000 syscall.FILE_FLAG_OPEN_REPARSE_POINT
    = syscall.FILE_FLAG_OPEN_REPARSE_POINT.
Proof.
  pose proof (entry_points_pass_open_flags Mock.layer "C:\link" 10) as [Hs [Hl _]].
  assert (H1 : In (EvCreateFile "C:\link" syscall.GENERIC_READ 3
                     syscall.OPEN_EXISTING 0x02000000 (Some 10))
                  (trace (snd (statNolog Mock.layer "C:\link" (mkState 10 [])))))
    by (vm_compute; auto).
  assert (H2 : In (EvCreateFile "C:\link" syscall.GENERIC_READ 3
                     syscall.OPEN_EXISTING 0x02200000 (Some 10))
                  (trace (snd (lstatNolog Mock.layer "C:\link" (mkState 10 [])))))
    by (vm_compute; auto).
  split; [exact H1 | split; [exact H2 |]].
  destruct (Hs _ _ _ _ _ _ H1) as [_ [_ Hc]].
  destruct (Hl _ _ _ _ _ _ H2) as [_ [_ Hr]].
  split; [exact Hc | exact Hr].
Defined.

(** C5. In [statHandle], when [GetFileType] reports FILE_TYPE_PIPE or
    FILE_TYPE_CHAR the result is success with a [fileStat] whose only
    non-zero fields are [name], the basename of the given name, and
    [filetype]; the type query is the only OS call made. *)
Theorem statHandle_pipe_or_char {W} (os : OSLayer W) (nm : string) (h : Handle)
        (s : State W) (ft : Z) (w' : W) :
  os_GetFileType os h (world s) = (inr ft, w') ->
  ft = syscall.FILE_TYPE_PIPE \/ ft = syscall.FILE_TYPE_CHAR ->
  statHandle os nm h s
  = (Ok {| name := os_basename os nm; FileAttributes := 0;
           CreationTime := zeroFiletime; LastAccessTime := zeroFiletime;
           LastWriteTime := zeroFiletime;
           FileSizeHigh := 0; FileSizeLow := 0; filetype := ft;
           path := ""; vol := 0; idxhi := 0; idxlo := 0 |},
     mkState w' (trace s ++ [EvGetFileType h])).
Proof.
  intros Hty Hft. unfold_resolver. rewrite Hty.
  destruct Hft as [-> | ->]; reflexivity.
Qed.

Lemma statHandle_pipe_or_char_witness :
  statHandle Mock.layer "\\.\pipe\x" 3 Mock.start
  = (Ok {| name := "\\.\pipe\x"; FileAttributes := 0;
           CreationTime := zeroFiletime; LastAccessTime := zeroFiletime;
           LastWriteTime := zeroFiletime;
           FileSizeHigh := 0; FileSizeLow := 0;
           filetype := syscall.FILE_TYPE_PIPE;
           path := ""; vol := 0; idxhi := 0; idxlo := 0 |},
     mkState 10 [EvGetFileType 3]).
Proof.
  apply (statHandle_pipe_or_char Mock.layer "\\.\pipe\x" 3 Mock.start
           syscall.FILE_TYPE_PIPE 10).
  - reflexivity.
  - left; reflexivity.
Defined.

(** C10. [Stat] on a nil [File] returns the bare [ErrInvalid], which is no
    [PathError], and touches neither the world nor the trace.  On a [File]
    that is an open directory it is the path-based resolver with the "Stat"
    tag and the follow-symlinks flags, applied to the remembered path; the
    file's own handle plays no part. *)
Theorem File_Stat_nil_and_directory {W} (os : OSLayer W) (s : State W) :
  File_Stat os None s = (Err ErrInvalid, s) /\
  (forall op p e, ErrInvalid <> PathError op p e) /\
  (forall (f : File) (d : dirInfo),
      dirinfo f = Some d ->
      File_Stat os (Some f) s
      = stat os "Stat" (dir_path d) syscall.FILE_FLAG_BACKUP_SEMANTICS s /\
      forall h', File_Stat os (Some f) s
                 = File_Stat os (Some {| file_name := file_name f;
                                         pfd_Sysfd := h';
                                         dirinfo := dirinfo f |}) s).
Proof.
  split; [reflexivity | split; [discriminate |]].
  intros f d Hd. unfold File_Stat. cbn. rewrite Hd. split; reflexivity.
Qed.

Lemma File_Stat_nil_and_directory_witness :
  File_Stat Mock.layer
            (Some {| file_name := "a.txt"; pfd_Sysfd := 4;
                     dirinfo := Some {| dir_path := "C:\a.txt" |} |})
            Mock.start
  = stat Mock.layer "Stat" "C:\a.txt" syscall.FILE_FLAG_BACKUP_SEMANTICS
         Mock.start.
Proof.
  apply (proj2 (proj2 (File_Stat_nil_and_directory Mock.layer Mock.start))
               {| file_name := "a.txt"; pfd_Sysfd := 4;
                  dirinfo := Some {| dir_path := "C:\a.txt" |} |}
               {| dir_path := "C:\a.txt" |}).
  reflexivity.
Defined.

(** C6. Every run of [stat], whatever the OS answers at each step, extends
    the trace by events among which the handles opened ([FindFirstFile] and
    [CreateFile] that succeeded) are exactly the handles released
    ([FindClose], [CloseHandle]), in the same number; replaying the events,
    every release names a handle that is live at that point and none is live
    at the end.  The releases are part of the trace that comes back with the
    result, so they precede the return. *)
Theorem stat_releases_every_handle {W} (os : OSLayer W)
        (funcname name : string) (createFileAttrs : Z) (s : State W) :
  exists evs,
    trace (snd (stat os funcname name createFileAttrs s)) = trace s ++ evs /\
    length (opened evs) = length (released evs) /\
    opened evs = released evs /\
    track evs [] = Some [].
Proof.
  run_resolver;
    (eexists; split;
     [ first [ rewrite <- ?app_assoc; reflexivity | symmetry; apply app_nil_r ]
     | cbn; rewrite ?Z.eqb_refl; auto ]).
Qed.

(** C7. When [stat] has built metadata from the fast attribute query (the
    query succeeded with the reparse bit clear) or from the [FindFirstFile]
    entry (after a sharing violation), it calls [saveInfoFromPath] on that
    metadata next; the call's outcome is the outcome of [stat]: the
    enrichment's error as it is when it fails, the enriched metadata
    otherwise. *)
Theorem enrichment_outcome_is_the_result {W} (os : OSLayer W)
        (funcname name : string) (createFileAttrs : Z) (namep : string)
        (w : W) (t : list Event) :
  name <> "" ->
  os_UTF16PtrFromString os (os_fixLongPath os name) = inr namep ->
  (forall fa w1 r w2,
      os_GetFileAttributesEx os namep w = (inr fa, w1) ->
      Z.land (fa_FileAttributes fa) syscall.FILE_ATTRIBUTE_REPARSE_POINT = 0 ->
      os_saveInfoFromPath os name (fileStatOfAttributeData fa) w1 = (r, w2) ->
      stat os funcname name createFileAttrs (mkState w t)
      = (match r with inl e => Err e | inr fs => Ok fs end,
         mkState w2 (t ++ [EvGetFileAttributesEx namep;
                           EvSaveInfoFromPath name]))) /\
  (forall e w1 sh fd w2 r w3,
      os_GetFileAttributesEx os namep w = (inl e, w1) ->
      is_errno (Some e) windows.ERROR_SHARING_VIOLATION = true ->
      os_FindFirstFile os namep w1 = (inr (sh, fd), w2) ->
      os_saveInfoFromPath os name (newFileStatFromWin32finddata fd)
                          (os_FindClose os sh w2) = (r, w3) ->
      stat os funcname name createFileAttrs (mkState w t)
      = (match r with inl e => Err e | inr fs => Ok fs end,
         mkState w3 (t ++ [EvGetFileAttributesEx namep;
                           EvFindFirstFile namep (Some sh);
                           EvFindClose sh;
                           EvSaveInfoFromPath name]))).
Proof.
  intros Hne Hp. apply nonempty_length in Hne. split.
  - intros fa w1 r w2 Hq Hbit Hsave.
    apply Z.eqb_eq in Hbit.
    unfold_resolver. rewrite Hne, Hp. cbn. rewrite Hq, Hbit. cbn.
    rewrite Hsave, <- app_assoc. destruct r; reflexivity.
  - intros e w1 sh fd w2 r w3 Hq Hsv Hff Hsave.
    unfold stat, GetFileAttributesEx, call, bind.
    rewrite Hne, Hp. cbn [world trace]. rewrite Hq.
    unfold stat_fallback. rewrite Hsv.
    unfold_resolver. cbn [world trace]. rewrite Hff. cbn [world trace].
    rewrite Hsave, <- !app_assoc. destruct r; reflexivity.
Qed.

Lemma enrichment_outcome_is_the_result_witness :
  stat Mock.layer "Stat" "rel.txt" syscall.FILE_FLAG_BACKUP_SEMANTICS
       (mkState 10 [])
  = (Err (PathError "FullPath" "rel.txt" (Errno 5)),
     mkState 10 [EvGetFileAttributesEx "rel.txt"; EvSaveInfoFromPath "rel.txt"]).
Proof.
  assert (Hne : "rel.txt" <> "") by discriminate.
  apply (proj1 (enrichment_outcome_is_the_result Mock.layer "Stat" "rel.txt"
                  syscall.FILE_FLAG_BACKUP_SEMANTICS "rel.txt" 10 []
                  Hne eq_refl)
               Mock.regularAttrs 10
               (inl (PathError "FullPath" "rel.txt" (Errno 5))) 10);
    reflexivity.
Defined.



(** The first thing [full_open] does is call [CreateFile] with the flags it
    was given. *)
Lemma full_open_first_event {W} (os : OSLayer W) name namep attrs (s : State W) :
  exists o rest,
    trace (snd (full_open os name namep attrs s))
    = trace s ++ EvCreateFile namep syscall.GENERIC_READ
               (Z.lor syscall.FILE_SHARE_READ syscall.FILE_SHARE_WRITE)
               syscall.OPEN_EXISTING attrs o :: rest.
Proof.
  run_resolver; rewrite <- ?app_assoc; cbn; eauto.
Qed.

Lemma saveAndReturn_trace {W} (os : OSLayer W) fs name (s : State W) :
  trace (snd (saveAndReturn os fs name s)) = trace s ++ [EvSaveInfoFromPath name].
Proof.
  run_resolver; reflexivity.
Qed.

Lemma full_open_is_not_fast_return {W} (os : OSLayer W) name namep attrs fs
      (s : State W) :
  full_open os name namep attrs s <> saveAndReturn os fs name s.
Proof.
  intros Heq.
  destruct (full_open_first_event os name namep attrs s) as (o & rest & Ht).
  rewrite Heq, saveAndReturn_trace in Ht.
  apply app_inv_head in Ht. discriminate.
Qed.




(** C1, as stated, fails: for the symlink of the mock layer the fast query
    succeeds and [lstatNolog] does not ask to follow symlinks, yet the run
    does not return from the fast path; it goes on to [CreateFile]. *)
Lemma fast_path_follow_disjunct_counterexample :
  os_GetFileAttributesEx Mock.layer "C:\link" (world Mock.start)
  = (inr Mock.linkAttrs, 10) /\
  ~ (fast_path_return Mock.layer "Lstat" "C:\link"
        (Z.lor (uint32 syscall.FILE_FLAG_BACKUP_SEMANTICS)
               syscall.FILE_FLAG_OPEN_REPARSE_POINT)
        Mock.start "C:\link" Mock.linkAttrs 10
     <-> (followSymlink (Z.lor (uint32 syscall.FILE_FLAG_BACKUP_SEMANTICS)
                               syscall.FILE_FLAG_OPEN_REPARSE_POINT) = false
          \/ Z.land (fa_FileAttributes Mock.linkAttrs)
                    syscall.FILE_ATTRIBUTE_REPARSE_POINT = 0)) /\
  existsb is_CreateFile
          (trace (snd (lstatNolog Mock.layer "C:\link" Mock.start))) = true.
Proof.
  split; [reflexivity | split; [| reflexivity]].
  intros [_ H]. specialize (H (or_introl eq_refl)).
  unfold fast_path_return in H. vm_compute in H. discriminate.
Qed.

(** C1, amended.  For a non-empty path whose fast attribute query succeeds,
    [stat] returns from the fast path, with the outcome of the enrichment of
    the metadata copied from the fast-query data, exactly when the
    reparse-point bit of the returned attributes is clear, whether or not the
    caller asked to follow symlinks; when the bit is set the run continues
    with the full-open fallback. *)
Theorem fast_path_iff_reparse_bit_clear {W} (os : OSLayer W)
        (funcname name : string) (createFileAttrs : Z) (namep : string)
        (s : State W) (fa : Win32FileAttributeData) (w1 : W) :
  name <> "" ->
  os_UTF16PtrFromString os (os_fixLongPath os name) = inr namep ->
  os_GetFileAttributesEx os namep (world s) = (inr fa, w1) ->
  (fast_path_return os funcname name createFileAttrs s namep fa w1
   <-> Z.land (fa_FileAttributes fa) syscall.FILE_ATTRIBUTE_REPARSE_POINT = 0) /\
  (Z.land (fa_FileAttributes fa) syscall.FILE_ATTRIBUTE_REPARSE_POINT <> 0 ->
   stat os funcname name createFileAttrs s
   = full_open os name namep createFileAttrs
               (mkState w1 (trace s ++ [EvGetFileAttributesEx namep]))).
Proof.
  intros Hne Hp Hq. apply nonempty_length in Hne.
  assert (Hrun : stat os funcname name createFileAttrs s
                 = if Z.land (fa_FileAttributes fa)
                             syscall.FILE_ATTRIBUTE_REPARSE_POINT =? 0
                   then saveAndReturn os (fileStatOfAttributeData fa) name
                          (mkState w1 (trace s ++ [EvGetFileAttributesEx namep]))
                   else full_open os name namep createFileAttrs
                          (mkState w1 (trace s ++ [EvGetFileAttributesEx namep]))).
  { unfold stat, GetFileAttributesEx, call, bind.
    rewrite Hne, Hp, Hq.
    destruct (Z.land (fa_FileAttributes fa)
                     syscall.FILE_ATTRIBUTE_REPARSE_POINT =? 0); reflexivity. }
  unfold fast_path_return. rewrite Hrun.
  destruct (Z.land (fa_FileAttributes fa)
                   syscall.FILE_ATTRIBUTE_REPARSE_POINT =? 0) eqn:Hbit.
  - apply Z.eqb_eq in Hbit. split; [tauto | congruence].
  - apply Z.eqb_neq in Hbit. split; [| reflexivity].
    split; [| contradiction].
    intros Heq. exfalso. exact (full_open_is_not_fast_return _ _ _ _ _ _ Heq).
Qed.

Lemma fast_path_iff_reparse_bit_clear_witness :
  fast_path_return Mock.layer "Lstat" "C:\a.txt"
     (Z.lor (uint32 syscall.FILE_FLAG_BACKUP_SEMANTICS)
            syscall.FILE_FLAG_OPEN_REPARSE_POINT)
     Mock.start "C:\a.txt" Mock.regularAttrs 10.
Proof.
  assert (Hne : "C:\a.txt" <> "") by discriminate.
  apply (proj1 (fast_path_iff_reparse_bit_clear Mock.layer "Lstat" "C:\a.txt"
                  (Z.lor (uint32 syscall.FILE_FLAG_BACKUP_SEMANTICS)
                         syscall.FILE_FLAG_OPEN_REPARSE_POINT)
                  "C:\a.txt" Mock.start Mock.regularAttrs 10
                  Hne eq_refl eq_refl)).
  reflexivity.
Defined.

(** C2, as stated, fails: in the mock layer the fast query of "C:\denied"
    fails with access denied, which is no sharing violation, yet the run is
    not ended by that error: it goes on to [CreateFile] and succeeds. *)
Lemma other_fast_query_error_terminal_counterexample :
  os_GetFileAttributesEx Mock.layer "C:\denied" (world Mock.start)
  = (inl (Errno Mock.ERROR_ACCESS_DENIED), 10) /\
  is_errno (Some (Errno Mock.ERROR_ACCESS_DENIED))
           windows.ERROR_SHARING_VIOLATION = false /\
  ~ fast_query_error_terminal Mock.layer "Stat" "C:\denied"
      syscall.FILE_FLAG_BACKUP_SEMANTICS Mock.start "C:\denied"
      (Errno Mock.ERROR_ACCESS_DENIED) /\
  (exists fs, fst (statNolog Mock.layer "C:\denied" Mock.start) = Ok fs) /\
  existsb is_CreateFile
          (trace (snd (statNolog Mock.layer "C:\denied" Mock.start))) = true.
Proof.
  split; [reflexivity | split; [reflexivity | split; [| split]]].
  - intros [H _]. vm_compute in H. discriminate.
  - eexists. vm_compute. reflexivity.
  - reflexivity.
Qed.

(** C2, amended.  A failed fast attribute query never ends [stat] by
    itself.  A sharing violation sends the run to the [FindFirstFile]
    enumeration fallback, and it is the only error that does; every other
    error is dropped and the run continues with the [CreateFile] full-open
    fallback, whose outcome is the outcome of [stat]. *)
Theorem fast_query_error_selects_fallback {W} (os : OSLayer W)
        (funcname name : string) (createFileAttrs : Z) (namep : string)
        (s : State W) (err : error) (w1 : W) :
  name <> "" ->
  os_UTF16PtrFromString os (os_fixLongPath os name) = inr namep ->
  os_GetFileAttributesEx os namep (world s) = (inl err, w1) ->
  (err = Errno windows.ERROR_SHARING_VIOLATION ->
   stat os funcname name createFileAttrs s
   = enumeration_fallback os name namep
       (mkState w1 (trace s ++ [EvGetFileAttributesEx namep]))) /\
  (err <> Errno windows.ERROR_SHARING_VIOLATION ->
   stat os funcname name createFileAttrs s
   = full_open os name namep createFileAttrs
       (mkState w1 (trace s ++ [EvGetFileAttributesEx namep]))) /\
  ~ fast_query_error_terminal os funcname name createFileAttrs s namep err.
Proof.
  intros Hne Hp Hq. apply nonempty_length in Hne.
  assert (Hrun : stat os funcname name createFileAttrs s
                 = stat_fallback os name namep createFileAttrs (Some err)
                     (mkState w1 (trace s ++ [EvGetFileAttributesEx namep]))).
  { unfold stat, GetFileAttributesEx, call, bind.
    rewrite Hne, Hp, Hq. reflexivity. }
  split; [| split].
  - intros ->. rewrite Hrun. reflexivity.
  - intros Hother. rewrite Hrun. unfold stat_fallback.
    destruct err as [e | | |]; try reflexivity.
    cbn. destruct (e =? windows.ERROR_SHARING_VIOLATION) eqn:He; [| reflexivity].
    apply Z.eqb_eq in He. subst e. contradiction.
  - intros [_ Ht]. rewrite Hrun in Ht. revert Ht.
    unfold stat_fallback.
    destruct (is_errno (Some err) windows.ERROR_SHARING_VIOLATION).
    + run_resolver; rewrite <- ?app_assoc; intros Ht;
        apply app_inv_head in Ht; discriminate.
    + destruct (full_open_first_event os name namep createFileAttrs
                  (mkState w1 (trace s ++ [EvGetFileAttributesEx namep])))
        as (o & rest & Hf).
      rewrite Hf. cbn [trace]. rewrite <- app_assoc. intros Ht.
      apply app_inv_head in Ht. discriminate.
Qed.

Lemma fast_query_error_selects_fallback_witness :
  stat Mock.layer "Stat" "C:\denied" syscall.FILE_FLAG_BACKUP_SEMANTICS
       Mock.start
  = full_open Mock.layer "C:\denied" "C:\denied"
              syscall.FILE_FLAG_BACKUP_SEMANTICS
              (mkState 10 [EvGetFileAttributesEx "C:\denied"]).
Proof.
  assert (Hne : "C:\denied" <> "") by discriminate.
  apply (proj1 (proj2 (fast_query_error_selects_fallback Mock.layer "Stat"
                  "C:\denied" syscall.FILE_FLAG_BACKUP_SEMANTICS "C:\denied"
                  Mock.start (Errno Mock.ERROR_ACCESS_DENIED) 10
                  Hne eq_refl eq_refl))).
  discriminate.
Defined.

(** ** Further properties of the resolvers *)

(** X1. When the path cannot be encoded ([UTF16PtrFromString] fails), [stat]
    returns that error wrapped in a [PathError] carrying the caller's
    operation tag and the caller's own name, and makes no OS call. *)
Theorem stat_encoding_failure {W} (os : OSLayer W) (funcname name : string)
        (createFileAttrs : Z) (s : State W) (err : error) :
  name <> "" ->
  os_UTF16PtrFromString os (os_fixLongPath os name) = inl err ->
  stat os funcname name createFileAttrs s
  = (Err (PathError funcname name err), s).
Proof.
  intros Hne Hp. apply nonempty_length in Hne.
  unfold stat. rewrite Hne, Hp. reflexivity.
Qed.

Lemma stat_encoding_failure_witness :
  stat Mock.strict "Lstat" Mock.nulName syscall.FILE_FLAG_BACKUP_SEMANTICS
       Mock.start
  = (Err (PathError "Lstat" Mock.nulName (Errno Mock.EINVAL)), Mock.start).
Proof.
  apply (stat_encoding_failure Mock.strict "Lstat" Mock.nulName
           syscall.FILE_FLAG_BACKUP_SEMANTICS Mock.start (Errno Mock.EINVAL)).
  - discriminate.
  - reflexivity.
Defined.

(** X2. The operation tag plays no part once the path is non-empty and
    encodes: from there on [stat] gives the same result and the same final
    state under any two tags. *)
Theorem stat_tag_only_in_early_errors {W} (os : OSLayer W)
        (f1 f2 name : string) (createFileAttrs : Z) (s : State W)
        (namep : string) :
  name <> "" ->
  os_UTF16PtrFromString os (os_fixLongPath os name) = inr namep ->
  stat os f1 name createFileAttrs s = stat os f2 name createFileAttrs s.
Proof.
  intros Hne Hp. apply nonempty_length in Hne.
  unfold stat. rewrite Hne, Hp. reflexivity.
Qed.

Lemma stat_tag_only_in_early_errors_witness :
  stat Mock.layer "Stat" "nope" syscall.FILE_FLAG_BACKUP_SEMANTICS Mock.start
  = stat Mock.layer "Lstat" "nope" syscall.FILE_FLAG_BACKUP_SEMANTICS Mock.start.
Proof.
  apply (stat_tag_only_in_early_errors Mock.layer "Stat" "Lstat" "nope"
           syscall.FILE_FLAG_BACKUP_SEMANTICS Mock.start "nope").
  - discriminate.
  - reflexivity.
Defined.

(** X3. The open flags matter only through [CreateFile]: when a run of
    [stat] makes no [CreateFile] call, the run with any other flag word
    gives the same result and the same final state. *)
Theorem stat_flags_only_matter_for_CreateFile {W} (os : OSLayer W)
        (funcname name : string) (a1 a2 : Z) (w : W) :
  existsb is_CreateFile
          (trace (snd (stat os funcname name a1 (mkState w [])))) = false ->
  stat os funcname name a2 (mkState w []) = stat os funcname name a1 (mkState w []).
Proof.
  unfold stat.
  destruct (String.length name =? 0)%nat; [reflexivity |].
  destruct (os_UTF16PtrFromString os (os_fixLongPath os name)) as [err | namep];
    [reflexivity |].
  unfold bind. destruct (GetFileAttributesEx os namep (mkState w [])) as [r s1].
  assert (Hopen : forall a,
             existsb is_CreateFile
                     (trace (snd (full_open os name namep a s1))) = true).
  { intros a. destruct (full_open_first_event os name namep a s1) as (o & rest & Ht).
    rewrite Ht, existsb_app. cbn. apply orb_true_r. }
  destruct r as [err | fa].
  - unfold stat_fallback.
    destruct (is_errno (Some err) windows.ERROR_SHARING_VIOLATION);
      [reflexivity |].
    intros H. rewrite Hopen in H. discriminate.
  - destruct (Z.land (fa_FileAttributes fa)
                     syscall.FILE_ATTRIBUTE_REPARSE_POINT =? 0); [reflexivity |].
    unfold stat_fallback. cbn [is_errno].
    intros H. rewrite Hopen in H. discriminate.
Qed.

Lemma stat_flags_only_matter_for_CreateFile_witness :
  stat Mock.layer "Lstat" "C:\pagefile.sys"
       (Z.lor syscall.FILE_FLAG_BACKUP_SEMANTICS
              syscall.FILE_FLAG_OPEN_REPARSE_POINT) (mkState 10 [])
  = stat Mock.layer "Lstat" "C:\pagefile.sys"
         syscall.FILE_FLAG_BACKUP_SEMANTICS (mkState 10 []).
Proof.
  apply (stat_flags_only_matter_for_CreateFile Mock.layer "Lstat"
           "C:\pagefile.sys" syscall.FILE_FLAG_BACKUP_SEMANTICS
           (Z.lor syscall.FILE_FLAG_BACKUP_SEMANTICS
                  syscall.FILE_FLAG_OPEN_REPARSE_POINT) 10).
  reflexivity.
Defined.

(** X4. After a sharing violation, a failing [FindFirstFile] ends [stat]
    with that error tagged "FindFirstFile" and the caller's name; nothing
    was opened, so nothing is closed, and neither the enrichment nor
    [CreateFile] is tried. *)
Theorem enumeration_failure_is_terminal {W} (os : OSLayer W)
        (funcname name : string) (createFileAttrs : Z) (namep : string)
        (w : W) (t : list Event) (e : error) (w1 : W) (e' : error) (w2 : W) :
  name <> "" ->
  os_UTF16PtrFromString os (os_fixLongPath os name) = inr namep ->
  os_GetFileAttributesEx os namep w = (inl e, w1) ->
  is_errno (Some e) windows.ERROR_SHARING_VIOLATION = true ->
  os_FindFirstFile os namep w1 = (inl e', w2) ->
  stat os funcname name createFileAttrs (mkState w t)
  = (Err (PathError "FindFirstFile" name e'),
     mkState w2 (t ++ [EvGetFileAttributesEx namep;
                       EvFindFirstFile namep None])).
Proof.
  intros Hne Hp Hq Hsv Hff. apply nonempty_length in Hne.
  unfold stat, GetFileAttributesEx, call, bind.
  rewrite Hne, Hp. cbn [world trace]. rewrite Hq.
  unfold stat_fallback. rewrite Hsv.
  unfold_resolver. cbn [world trace]. rewrite Hff. cbn [world trace].
  rewrite <- app_assoc. reflexivity.
Qed.

Lemma enumeration_failure_is_terminal_witness :
  stat
    {| os_fixLongPath := fun p => p;
       os_UTF16PtrFromString := fun p => inr p;
       os_basename := fun p => p;
       os_GetFileAttributesEx :=
         fun _ w => (inl (Errno windows.ERROR_SHARING_VIOLATION), w);
       os_FindFirstFile := fun _ w => (inl (Errno 5), w);
       os_FindClose := fun _ w => w;
       os_CreateFile := Mock.createFile;
       os_CloseHandle := fun _ w => w;
       os_GetFileType := Mock.getFileType;
       os_newFileStatFromGetFileInformationByHandle :=
         fun nm _ w => (inr (Mock.handleStat nm), w);
       os_saveInfoFromPath := Mock.saveInfo |}
    "Stat" "C:\swap" syscall.FILE_FLAG_BACKUP_SEMANTICS (mkState 10 [])
  = (Err (PathError "FindFirstFile" "C:\swap" (Errno 5)),
     mkState 10 [EvGetFileAttributesEx "C:\swap";
                 EvFindFirstFile "C:\swap" None]).
Proof.
  assert (Hne : "C:\swap" <> "") by discriminate.
  apply (enumeration_failure_is_terminal _ "Stat" "C:\swap"
           syscall.FILE_FLAG_BACKUP_SEMANTICS "C:\swap" 10 []
           (Errno windows.ERROR_SHARING_VIOLATION) 10 (Errno 5) 10 Hne);
    reflexivity.
Defined.

(** X5. When [CreateFile] fails, the full-open fallback returns that error
    tagged "CreateFile" with the caller's name and stops: no type query and
    no [CloseHandle] follow. *)
Theorem full_open_failure {W} (os : OSLayer W) (name namep : string)
        (createFileAttrs : Z) (s : State W) (e : error) (w1 : W) :
  os_CreateFile os namep syscall.GENERIC_READ
                (Z.lor syscall.FILE_SHARE_READ syscall.FILE_SHARE_WRITE)
                syscall.OPEN_EXISTING createFileAttrs (world s) = (inl e, w1) ->
  full_open os name namep createFileAttrs s
  = (Err (PathError "CreateFile" name e),
     mkState w1 (trace s ++ [EvCreateFile namep syscall.GENERIC_READ
                               (Z.lor syscall.FILE_SHARE_READ
                                      syscall.FILE_SHARE_WRITE)
                               syscall.OPEN_EXISTING createFileAttrs None])).
Proof.
  intros Hc. unfold_resolver. rewrite Hc. reflexivity.
Qed.

Lemma full_open_failure_witness :
  full_open Mock.layer "nope" "nope" syscall.FILE_FLAG_BACKUP_SEMANTICS
            Mock.start
  = (Err (PathError "CreateFile" "nope" (Errno Mock.ERROR_FILE_NOT_FOUND)),
     mkState 10 [EvCreateFile "nope" syscall.GENERIC_READ 3
                              syscall.OPEN_EXISTING
                              syscall.FILE_FLAG_BACKUP_SEMANTICS None]).
Proof.
  apply (full_open_failure Mock.layer "nope" "nope"
           syscall.FILE_FLAG_BACKUP_SEMANTICS Mock.start
           (Errno Mock.ERROR_FILE_NOT_FOUND) 10).
  reflexivity.
Defined.

(** X6. When [CreateFile] succeeds with handle [h], the full-open fallback
    returns exactly what [statHandle] returns on [h], success or error, and
    the last OS call of the run is [CloseHandle h], made after [statHandle]
    has finished. *)
Theorem full_open_defers_close {W} (os : OSLayer W) (name namep : string)
        (createFileAttrs : Z) (s : State W) (h : Handle) (w1 : W) :
  os_CreateFile os namep syscall.GENERIC_READ
                (Z.lor syscall.FILE_SHARE_READ syscall.FILE_SHARE_WRITE)
                syscall.OPEN_EXISTING createFileAttrs (world s) = (inr h, w1) ->
  let s1 := mkState w1 (trace s ++ [EvCreateFile namep syscall.GENERIC_READ
                                      (Z.lor syscall.FILE_SHARE_READ
                                             syscall.FILE_SHARE_WRITE)
                                      syscall.OPEN_EXISTING createFileAttrs
                                      (Some h)]) in
  full_open os name namep createFileAttrs s
  = (fst (statHandle os name h s1),
     mkState (os_CloseHandle os h (world (snd (statHandle os name h s1))))
             (trace (snd (statHandle os name h s1)) ++ [EvCloseHandle h])).
Proof.
  intros Hc s1. unfold full_open, CreateFile, CloseHandle, call, call_, bind, ret.
  rewrite Hc. cbn [opened_of]. fold s1.
  destruct (statHandle os name h s1) as [res s2]. reflexivity.
Qed.

Lemma full_open_defers_close_witness :
  full_open Mock.layer "C:\link" "C:\link"
            syscall.FILE_FLAG_BACKUP_SEMANTICS Mock.start
  = (Ok (with_filetype (Mock.handleStat "C:\link") syscall.FILE_TYPE_DISK),
     mkState 11 [EvCreateFile "C:\link" syscall.GENERIC_READ 3
                              syscall.OPEN_EXISTING
                              syscall.FILE_FLAG_BACKUP_SEMANTICS (Some 10);
                 EvGetFileType 10;
                 EvGetFileInformationByHandle "C:\link" 10;
                 EvCloseHandle 10]).
Proof.
  apply (full_open_defers_close Mock.layer "C:\link" "C:\link"
           syscall.FILE_FLAG_BACKUP_SEMANTICS Mock.start 10 11).
  reflexivity.
Defined.

(** X7. [statHandle] never opens and never releases a handle, makes at most
    two OS calls, both on the handle it was given, and the first is the type
    query: the caller keeps ownership of the handle. *)
Theorem statHandle_leaves_handle_alone {W} (os : OSLayer W) (nm : string)
        (h : Handle) (s : State W) :
  exists evs,
    trace (snd (statHandle os nm h s)) = trace s ++ EvGetFileType h :: evs /\
    (evs = [] \/ evs = [EvGetFileInformationByHandle nm h]) /\
    opened (EvGetFileType h :: evs) = [] /\
    released (EvGetFileType h :: evs) = [].
Proof.
  run_resolver; rewrite <- ?app_assoc; cbn;
    eexists; (split; [reflexivity |]); cbn; auto.
Qed.

(** X8. What [statHandle] returns follows the type the OS reported: a
    failing type query gives that error tagged "GetFileType" with the given
    name; otherwise a successful result always carries the reported type in
    [filetype], and for a type other than pipe and character device the
    result is that of the information query, whose error is returned
    as it is. *)
Theorem statHandle_outcome {W} (os : OSLayer W) (nm : string) (h : Handle)
        (s : State W) :
  (forall e w1,
      os_GetFileType os h (world s) = (inl e, w1) ->
      statHandle os nm h s
      = (Err (PathError "GetFileType" nm e),
         mkState w1 (trace s ++ [EvGetFileType h]))) /\
  (forall ft w1 fs,
      os_GetFileType os h (world s) = (inr ft, w1) ->
      fst (statHandle os nm h s) = Ok fs ->
      filetype fs = ft) /\
  (forall ft w1 r w2,
      os_GetFileType os h (world s) = (inr ft, w1) ->
      diskEquivalent ft = true ->
      os_newFileStatFromGetFileInformationByHandle os nm h w1 = (r, w2) ->
      statHandle os nm h s
      = (match r with
         | inl e => Err e
         | inr fs => Ok (with_filetype fs ft)
         end,
         mkState w2 (trace s ++ [EvGetFileType h;
                                 EvGetFileInformationByHandle nm h]))).
Proof.
  split; [| split].
  - intros e w1 Hty. unfold_resolver. rewrite Hty. reflexivity.
  - intros ft w1 fs Hty. unfold_resolver. rewrite Hty.
    destruct ((ft =? syscall.FILE_TYPE_PIPE) || (ft =? syscall.FILE_TYPE_CHAR)).
    + cbn. intros H. inversion H. reflexivity.
    + cbn [world trace].
      destruct (os_newFileStatFromGetFileInformationByHandle os nm h w1)
        as [[e | fs0] w2]; cbn; intros H; inversion H. reflexivity.
  - intros ft w1 r w2 Hty Hdisk Hinfo. unfold diskEquivalent in Hdisk.
    apply negb_true_iff in Hdisk.
    unfold_resolver. rewrite Hty, Hdisk. cbn [world trace].
    rewrite Hinfo, <- app_assoc. destruct r; reflexivity.
Qed.

Lemma statHandle_outcome_witness :
  statHandle Mock.layer "C:\a.txt" 7 Mock.start
  = (Ok (with_filetype (Mock.handleStat "C:\a.txt") syscall.FILE_TYPE_DISK),
     mkState 10 [EvGetFileType 7; EvGetFileInformationByHandle "C:\a.txt" 7]).
Proof.
  apply (proj2 (proj2 (statHandle_outcome Mock.layer "C:\a.txt" 7 Mock.start))
               syscall.FILE_TYPE_DISK 10
               (inr (Mock.handleStat "C:\a.txt")) 10);
    reflexivity.
Defined.

(** X9. Every error [stat] returns is accounted for: it is either a
    [PathError] built here, whose path is the caller's own name (never the
    rewritten long path) and whose operation is the caller's tag,
    "FindFirstFile", "CreateFile" or "GetFileType"; or it is, unchanged, an
    error that [saveInfoFromPath] or the information query returned for that
    name. *)
Theorem stat_error_provenance {W} (os : OSLayer W) (funcname name : string)
        (createFileAttrs : Z) (s : State W) (e : error) :
  fst (stat os funcname name createFileAttrs s) = Err e ->
  (exists op err,
      e = PathError op name err /\
      In op [funcname; "FindFirstFile"; "CreateFile"; "GetFileType"]) \/
  (exists fs w w', os_saveInfoFromPath os name fs w = (inl e, w')) \/
  (exists h w w',
      os_newFileStatFromGetFileInformationByHandle os name h w = (inl e, w')).
Proof.
  run_resolver; cbn; intros H; inversion H; subst;
    first [ left; do 2 eexists; split; [reflexivity | cbn; tauto]
          | right; left; do 3 eexists; eassumption
          | right; right; do 3 eexists; eassumption ].
Qed.

Lemma stat_error_provenance_witness :
  (exists op err,
      PathError "CreateFile" "nope" (Errno Mock.ERROR_FILE_NOT_FOUND)
      = PathError op "nope" err /\
      In op ["Stat"; "FindFirstFile"; "CreateFile"; "GetFileType"]) \/
  (exists fs w w',
      os_saveInfoFromPath Mock.layer "nope" fs w
      = (inl (PathError "CreateFile" "nope" (Errno Mock.ERROR_FILE_NOT_FOUND)),
         w')) \/
  (exists h w w',
      os_newFileStatFromGetFileInformationByHandle Mock.layer "nope" h w
      = (inl (PathError "CreateFile" "nope" (Errno Mock.ERROR_FILE_NOT_FOUND)),
         w')).
Proof.
  apply (stat_error_provenance Mock.layer "Stat" "nope"
           syscall.FILE_FLAG_BACKUP_SEMANTICS Mock.start
           (PathError "CreateFile" "nope" (Errno Mock.ERROR_FILE_NOT_FOUND))).
  reflexivity.
Defined.

(** X10. In a run of [stat] on a path that encodes to [namep], every
    Windows call that takes a path ([GetFileAttributesEx], [FindFirstFile],
    [CreateFile]) is given [namep], and both collaborators that take a name
    ([saveInfoFromPath], the information query) are given the caller's
    original name. *)
Theorem stat_path_arguments {W} (os : OSLayer W) (funcname name : string)
        (createFileAttrs : Z) (w : W) (namep : string) :
  os_UTF16PtrFromString os (os_fixLongPath os name) = inr namep ->
  forallb (path_arg_ok name namep)
          (trace (snd (stat os funcname name createFileAttrs (mkState w []))))
  = true.
Proof.
  intros Hp. unfold stat. rewrite Hp.
  destruct (String.length name =? 0)%nat; [reflexivity |].
  run_resolver; cbn; rewrite ?String.eqb_refl; reflexivity.
Qed.

Lemma stat_path_arguments_witness :
  forallb (path_arg_ok "C:\link" "C:\link")
          (trace (snd (stat Mock.layer "Stat" "C:\link"
                            syscall.FILE_FLAG_BACKUP_SEMANTICS (mkState 10 []))))
  = true.
Proof.
  apply (stat_path_arguments Mock.layer "Stat" "C:\link"
           syscall.FILE_FLAG_BACKUP_SEMANTICS 10 "C:\link").
  reflexivity.
Defined.

(** X11. [stat] only ever touches handles it owns: replaying the calls of
    any run, each [FindClose] and [CloseHandle] names a handle the run
    opened and has not yet released, and each type or information query is
    made on a file handle that is open at that moment, never on one already
    closed or obtained elsewhere. *)
Theorem stat_uses_only_live_handles {W} (os : OSLayer W)
        (funcname name : string) (createFileAttrs : Z) (w : W) :
  disciplined (trace (snd (stat os funcname name createFileAttrs (mkState w []))))
              []
  = true.
Proof.
  run_resolver; cbn; unfold is_live, same_handle; cbn;
    rewrite ?Z.eqb_refl; reflexivity.
Qed.

(** X12. [stat] follows a single-hop chain without retries: a run makes at
    most five OS calls, and no two of them are the same call; whenever it
    makes any, the first one is the fast attribute query. *)
Theorem stat_makes_few_calls {W} (os : OSLayer W) (funcname name : string)
        (createFileAttrs : Z) (w : W) :
  let evs := trace (snd (stat os funcname name createFileAttrs (mkState w []))) in
  (length evs <= 5)%nat /\
  NoDup evs /\
  (evs = [] \/ exists namep rest, evs = EvGetFileAttributesEx namep :: rest).
Proof.
  run_resolver; cbn; (split; [lia |]); (split; [| eauto]);
    repeat (constructor; [cbn; intuition discriminate |]); constructor.
Qed.

(** X13. The [Stat] method of an open file that is not a directory is
    [statHandle] on the file's own name and handle: it opens nothing and, in
    particular, does not close the file's handle.  For every receiver, nil,
    directory or plain file, the handles the call opens are exactly the
    handles it releases. *)
Theorem File_Stat_keeps_the_file_open {W} (os : OSLayer W) (w : W) :
  (forall f,
      dirinfo f = None ->
      File_Stat os (Some f) (mkState w [])
      = statHandle os (file_name f) (pfd_Sysfd f) (mkState w []) /\
      released (trace (snd (File_Stat os (Some f) (mkState w [])))) = [] /\
      opened (trace (snd (File_Stat os (Some f) (mkState w [])))) = []) /\
  (forall file,
      opened (trace (snd (File_Stat os file (mkState w []))))
      = released (trace (snd (File_Stat os file (mkState w []))))).
Proof.
  split.
  - intros f Hd. unfold File_Stat. rewrite Hd.
    split; [reflexivity |]. run_resolver; cbn; auto.
  - intros [f |]; [| reflexivity].
    unfold File_Stat. destruct (dirinfo f) as [d |].
    + run_resolver; reflexivity.
    + run_resolver; reflexivity.
Qed.

Lemma File_Stat_keeps_the_file_open_witness :
  released (trace (snd (File_Stat Mock.layer
                          (Some {| file_name := "a.txt"; pfd_Sysfd := 4;
                                   dirinfo := None |})
                          (mkState 10 [])))) = [].
Proof.
  apply (proj1 (File_Stat_keeps_the_file_open Mock.layer 10)
               {| file_name := "a.txt"; pfd_Sysfd := 4; dirinfo := None |}).
  reflexivity.
Defined.
